(** * The Meta Deep Search sidecar ([sidecar/main.py])

    A shallow embedding of the command-line sidecar: it reads a query from
    standard input, builds three fixed branches, looks the query up in the
    local Kuzu store once per branch, joins what it finds and prints a
    labelled synthesis through [rich].

    Python text is modelled by [string]; a character stands for a code point
    below 256.  The store, the file system and the [rich] console are outside
    the program: they enter as the fields of an environment record, and the
    program is written in a small state-and-exception monad over the state of
    the process. *)

From Stdlib Require Import String Ascii List Bool Arith Lia ZArith.
Import ListNotations.
Open Scope string_scope.

(** ** Python text operations used by the program *)

Module Py.

(** The newline character of ['\n']. *)
Definition nl : string := String (ascii_of_nat 10) "".

(** [sep.join(parts)]. *)
Fixpoint join (sep : string) (parts : list string) : string :=
  match parts with
  | [] => ""
  | [p] => p
  | p :: rest => p ++ sep ++ join sep rest
  end.

(** [str.isspace] on one character: the white space of Python among the code
    points below 256 (TAB..CR, FS..US, SPACE, NEL and NBSP). *)
Definition isspace (c : ascii) : bool :=
  let n := nat_of_ascii c in
  (((9 <=? n) && (n <=? 13)) || ((28 <=? n) && (n <=? 32))
   || (n =? 133) || (n =? 160))%nat.

(** [s.lstrip()]. *)
Fixpoint lstrip (s : string) : string :=
  match s with
  | "" => ""
  | String c s' => if isspace c then lstrip s' else s
  end.

(** [s.rstrip()]: a white-space character is dropped when everything after it
    has been dropped too. *)
Fixpoint rstrip (s : string) : string :=
  match s with
  | "" => ""
  | String c s' =>
      match rstrip s' with
      | "" => if isspace c then "" else String c ""
      | r => String c r
      end
  end.

(** [s.strip()]. *)
Definition strip (s : string) : string := rstrip (lstrip s).

(** Every character of [s] is white space. *)
Fixpoint all_space (s : string) : bool :=
  match s with
  | "" => true
  | String c s' => isspace c && all_space s'
  end.

(** The number of newline characters of [s]; [s] has one line more. *)
Fixpoint newlines (s : string) : nat :=
  match s with
  | "" => 0
  | String c s' =>
      (if Ascii.eqb c (ascii_of_nat 10) then 1 else 0) + newlines s'
  end.

(** [len(s.split('\n'))]. *)
Definition line_count (s : string) : nat := S (newlines s).

End Py.

(** ** The world outside the program *)

(** An uncaught Python exception, by the name of its class. *)
Inductive exn : Type :=
| PyExc (name : string).

(** A row of a result set: a tuple with a column 0 of text, [row[0]]. *)
Record Row : Type := mkRow { row_0 : string; row_rest : list string }.

(** What the program calls but does not define.  [S] is the state of the
    embedded store as seen through the connection and its cursor. *)
Record Env (S : Type) : Type := mkEnv {
  (** [os.path.expanduser], [os.path.dirname], [os.path.exists] *)
  os_path_expanduser : string -> string;
  os_path_dirname : string -> string;
  os_path_exists : string -> bool;
  (** [os.makedirs(p)]: [None] when the directories were created *)
  os_makedirs : string -> option exn;
  (** [kuzudb.connect(path)] and [db.cursor()] *)
  kuzudb_connect : string -> S -> exn + S;
  db_cursor : S -> exn + S;
  (** [cursor.execute(statement, parameters)] and [cursor.fetchall()] *)
  cursor_execute : string -> list string -> S -> exn + S;
  cursor_fetchall : S -> exn + (list Row * S);
  (** the console markup rendering done by [rich.print] *)
  rich_render : string -> exn + string
}.

Arguments os_path_expanduser {S} _ _.
Arguments os_path_dirname {S} _ _.
Arguments os_path_exists {S} _ _.
Arguments os_makedirs {S} _ _.
Arguments kuzudb_connect {S} _ _ _.
Arguments db_cursor {S} _ _.
Arguments cursor_execute {S} _ _ _ _.
Arguments cursor_fetchall {S} _ _.
Arguments rich_render {S} _ _.

(** The state of one process: the store, what has been written to standard
    output, and two ghost traces, the statements executed with their
    parameters and the result sets fetched, oldest first. *)
Record World (S : Type) : Type := mkWorld {
  store : S;
  stdout : string;
  executed : list (string * list string);
  fetched : list (list Row)
}.

Arguments mkWorld {S} _ _ _ _.
Arguments store {S} _.
Arguments stdout {S} _.
Arguments executed {S} _.
Arguments fetched {S} _.

(** The world of a process that starts on store [s]. *)
Definition initial {S : Type} (s : S) : World S := mkWorld s "" [] [].

(** ** The monad of the program: state, and an exception that ends the run *)

Definition M (S A : Type) : Type := World S -> (exn + A) * World S.

Definition ret {S A : Type} (a : A) : M S A := fun w => (inr a, w).

Definition raise {S A : Type} (e : exn) : M S A := fun w => (inl e, w).

Definition bind {S A B : Type} (m : M S A) (k : A -> M S B) : M S B :=
  fun w =>
    match m w with
    | (inl e, w') => (inl e, w')
    | (inr a, w') => k a w'
    end.

Declare Scope py_scope.
Delimit Scope py_scope with py.
Notation "x <- m ;; k" := (bind m (fun x => k))
  (at level 61, m at next level, right associativity) : py_scope.
Notation "m ;;; k" := (bind m (fun _ => k))
  (at level 61, right associativity) : py_scope.
Open Scope py_scope.

(** A call into the store: it raises, or moves the store to a new state. *)
Definition on_store {S : Type} (f : S -> exn + S) : M S unit :=
  fun w =>
    match f (store w) with
    | inl e => (inl e, w)
    | inr s => (inr tt, mkWorld s (stdout w) (executed w) (fetched w))
    end.

(** ** The program *)

Section Program.

Context {S : Type} (env : Env S).

(** [DB_PATH = os.path.expanduser("~/.axiomhive/axiom.kuzu")] *)
Definition DB_PATH : string := os_path_expanduser env "~/.axiomhive/axiom.kuzu".

(** [connect_db()] *)
Definition connect_db : M S unit :=
  (if negb (os_path_exists env (os_path_dirname env DB_PATH))
   then match os_makedirs env (os_path_dirname env DB_PATH) with
        | Some e => raise e
        | None => ret tt
        end
   else ret tt) ;;;
  on_store (kuzudb_connect env DB_PATH).

(** The statement of every lookup. *)
Definition MATCH_STATEMENT : string :=
  "MATCH (n:Knowledge) WHERE n.text LIKE ? RETURN n LIMIT 5".

(** [f"%{query}%"] *)
Definition like_pattern (query : string) : string := "%" ++ query ++ "%".

(** [cursor.execute(statement, parameters)]; the call is traced. *)
Definition execute (statement : string) (parameters : list string) : M S unit :=
  (fun w => (inr tt, mkWorld (store w) (stdout w)
                       (executed w ++ [(statement, parameters)])%list
                       (fetched w))) ;;;
  on_store (cursor_execute env statement parameters).

(** [cursor.fetchall()]; the rows returned are traced. *)
Definition fetchall : M S (list Row) :=
  fun w =>
    match cursor_fetchall env (store w) with
    | inl e => (inl e, w)
    | inr (rows, s) =>
        (inr rows, mkWorld s (stdout w) (executed w) (fetched w ++ [rows])%list)
    end.

(** The [branches] list of [meta_deep_search]. *)
Definition branches (query : string) : list (string * string) :=
  [ ("Historical", "What is the historical context of: " ++ query);
    ("Theoretical", "What are the theoretical principles behind: " ++ query);
    ("Practical", "What practical examples or proofs exist for: " ++ query) ].

(** ['\n'.join([row[0] for row in rows]) if rows
    else "(no local evidence found)"] *)
Definition context_of (rows : list Row) : string :=
  match rows with
  | [] => "(no local evidence found)"
  | _ :: _ => Py.join Py.nl (map row_0 rows)
  end.

(** An element of [answers]: [(label, subquery, context)]. *)
Definition answer : Type := string * string * string.

(** The [for label, subquery in branches] loop, [answers] being the list
    built so far. *)
Fixpoint gather (query : string) (bs : list (string * string))
    (answers : list answer) : M S (list answer) :=
  match bs with
  | [] => ret answers
  | (label, subquery) :: bs' =>
      execute MATCH_STATEMENT [like_pattern query] ;;;
      rows <- fetchall ;;
      gather query bs' (answers ++ [(label, subquery, context_of rows)])%list
  end.

(** [f"[bold red]{lbl}[/]: {ctx}"] *)
Definition answer_line (a : answer) : string :=
  let '(lbl, sq, ctx) := a in "[bold red]" ++ lbl ++ "[/]: " ++ ctx.

(** ["\n".join([... for lbl, sq, ctx in answers])] *)
Definition synthesis (answers : list answer) : string :=
  Py.join Py.nl (map answer_line answers).

Definition HEADER : string := "Tree-of-Thoughts Synthesis:" ++ Py.nl.

(** [f"Tree-of-Thoughts Synthesis:\n{synthesis}"] *)
Definition synthesize (answers : list answer) : string :=
  HEADER ++ synthesis answers.

(** [meta_deep_search(query)] *)
Definition meta_deep_search (query : string) : M S string :=
  connect_db ;;;
  on_store (db_cursor env) ;;;
  answers <- gather query (branches query) [] ;;
  ret (synthesize answers).

(** [print(out)] of [rich]: the rendered text and a newline go to standard
    output. *)
Definition rich_print (out : string) : M S unit :=
  fun w =>
    match rich_render env out with
    | inl e => (inl e, w)
    | inr r => (inr tt, mkWorld (store w) (stdout w ++ r ++ Py.nl)
                          (executed w) (fetched w))
    end.

(** [main()], [input_txt] being what [sys.stdin.read()] returns. *)
Definition main (input_txt : string) : M S unit :=
  out <- meta_deep_search (Py.strip input_txt) ;;
  rich_print out.

(** The exit status of the interpreter: 1 after an uncaught exception. *)
Definition exit_status {A : Type} (r : exn + A) : Z :=
  match r with
  | inl _ => 1%Z
  | inr _ => 0%Z
  end.

(** A process started on store [s] with [input_txt] on standard input: its
    exit status and its standard output. *)
Definition run_process (s : S) (input_txt : string) : Z * string :=
  let '(r, w) := main input_txt (initial s) in
  (exit_status r, stdout w).

End Program.

Arguments branches query : simpl never.

(** ** What the store answers *)

Section Store.

Context {S : Type} (env : Env S).

(** The outcome of one lookup from store state [s]: [execute] then
    [fetchall]. *)
Definition query_result (statement : string) (parameters : list string)
    (s : S) : exn + list Row :=
  match cursor_execute env statement parameters s with
  | inl e => inl e
  | inr s1 =>
      match cursor_fetchall env s1 with
      | inl e => inl e
      | inr (rows, _) => inr rows
      end
  end.

(** The store state after a lookup that returned rows. *)
Definition query_next (statement : string) (parameters : list string)
    (s : S) : S :=
  match cursor_execute env statement parameters s with
  | inl _ => s
  | inr s1 =>
      match cursor_fetchall env s1 with
      | inl _ => s1
      | inr (_, s2) => s2
      end
  end.

(** The store answers by a response function: the outcome of a lookup
    depends on the statement and its parameters only, not on the state of
    the engine. *)
Definition responds_by (f : string -> list string -> exn + list Row) : Prop :=
  forall statement parameters s,
    query_result statement parameters s = f statement parameters.

(** The engine honours the [LIMIT 5] of the statement. *)
Definition honours_limit : Prop :=
  forall parameters s rows,
    query_result MATCH_STATEMENT parameters s = inr rows ->
    length rows <= 5.

(** The lookup every branch issues. *)
Definition the_call (query : string) : string * list string :=
  (MATCH_STATEMENT, [like_pattern query]).

(** The answer of a branch for the rows of its lookup. *)
Definition answer_of (b : string * string) (rows : list Row) : answer :=
  (fst b, snd b, context_of rows).

(** The world after the lookup of one branch raised. *)
Definition failed_lookup (query : string) (w : World S) : World S :=
  mkWorld (query_next MATCH_STATEMENT [like_pattern query] (store w))
    (stdout w) (executed w ++ [the_call query])%list (fetched w).

(** The world after the lookup of one branch returned [rows]. *)
Definition after_lookup (query : string) (w : World S) (rows : list Row) :
    World S :=
  mkWorld (query_next MATCH_STATEMENT [like_pattern query] (store w))
    (stdout w) (executed w ++ [the_call query])%list
    (fetched w ++ [rows])%list.

(** The lookup of some branch raises [e], [n] branches being left and the
    store being in state [s]: the earlier lookups returned rows. *)
Inductive branch_query_fails (query : string) : nat -> S -> exn -> Prop :=
| fails_here n s e :
    query_result MATCH_STATEMENT [like_pattern query] s = inl e ->
    branch_query_fails query (Datatypes.S n) s e
| fails_later n s rows e :
    query_result MATCH_STATEMENT [like_pattern query] s = inr rows ->
    branch_query_fails query n
      (query_next MATCH_STATEMENT [like_pattern query] s) e ->
    branch_query_fails query (Datatypes.S n) s e.

(** Opening the store: [connect_db()] and [db.cursor()]. *)
Definition open_store : M S unit :=
  connect_db env ;;; on_store (db_cursor env).

(** Opening the store raises [e], or it opens and the lookup of one of the
    three branches raises [e]. *)
Definition storage_fails (query : string) (w : World S) (e : exn) : Prop :=
  fst (open_store w) = inl e \/
  (fst (open_store w) = inr tt /\
   branch_query_fails query 3 (store (snd (open_store w))) e).

End Store.

(** ** The line of a branch without its markup *)

Module Spec.

(** [s] without its first [n] characters. *)
Fixpoint drop (n : nat) (s : string) : string :=
  match n, s with
  | 0, _ => s
  | Datatypes.S n', String _ s' => drop n' s'
  | Datatypes.S _, "" => ""
  end.

(** [s] without the first occurrence of [tag]. *)
Fixpoint erase_tag (tag s : string) : string :=
  match s with
  | "" => ""
  | String c s' =>
      if prefix tag s then drop (String.length tag) s
      else String c (erase_tag tag s')
  end.

(** A line with the markup of the label taken away: the opening
    [[bold red]] and the closing [[/]]. *)
Definition unstyled (line : string) : string :=
  erase_tag "[/]" (erase_tag "[bold red]" line).

(** The line of a branch as the specification words it:
    ["<label>: <evidence_text>"]. *)
Definition plain_line (label evidence_text : string) : string :=
  label ++ ": " ++ evidence_text.

End Spec.

(** ** An in-memory store to run the program on *)

Module Demo.

(** [text LIKE pattern] of the query language: [%] stands for any run of
    characters and [_] for one character. *)
Fixpoint like (p t : string) {struct p} : bool :=
  match p with
  | "" => match t with "" => true | _ => false end
  | String c p' =>
      if Ascii.eqb c "%" then
        (fix skip (u : string) : bool :=
           like p' u || match u with "" => false | String _ u' => skip u' end) t
      else
        match t with
        | "" => false
        | String d t' => (Ascii.eqb c "_" || Ascii.eqb c d) && like p' t'
        end
  end.

(** [s] without the occurrences of [tag]; [skip] characters of an occurrence
    are still to be passed over. *)
Fixpoint erase_all (tag : string) (skip : nat) (s : string) : string :=
  match s with
  | "" => ""
  | String c s' =>
      match skip with
      | Datatypes.S k => erase_all tag k s'
      | 0 =>
          if prefix tag s then erase_all tag (String.length tag - 1) s'
          else String c (erase_all tag 0 s')
      end
  end.

(** A console without colours: the two markers of the program are taken
    away and the rest is printed as it is. *)
Definition render (out : string) : exn + string :=
  inr (erase_all "[/]" 0 (erase_all "[bold red]" 0 out)).

(** The state of the engine: the result set the cursor holds and the number
    of statements executed so far. *)
Record store : Type := mkStore {
  pending : list Row;
  calls : nat
}.

(** What the engine answers to a lookup over the [Knowledge] texts [kb]. *)
Definition answer_to (kb : list string) (parameters : list string) :
    list Row :=
  match parameters with
  | [p] => map (fun t => mkRow t []) (firstn 5 (filter (like p) kb))
  | _ => []
  end.

(** An engine over the [Knowledge] texts [kb].  [can_open] tells whether the
    database opens; with [broken_at = Some k] the statement executed after
    [k] earlier ones raises. *)
Definition env (kb : list string) (can_open : bool) (broken_at : option nat) :
    Env store :=
  {| os_path_expanduser := fun p =>
       "/home/user" ++ substring 1 (String.length p) p;
     os_path_dirname := fun _ => "/home/user/.axiomhive";
     os_path_exists := fun _ => true;
     os_makedirs := fun _ => None;
     kuzudb_connect := fun _ s =>
       if can_open then inr s else inl (PyExc "RuntimeError");
     db_cursor := fun s => inr s;
     cursor_execute := fun _ parameters s =>
       if match broken_at with Some k => Nat.eqb k (calls s) | None => false end
       then inl (PyExc "RuntimeError")
       else inr (mkStore (answer_to kb parameters) (Datatypes.S (calls s)));
     cursor_fetchall := fun s => inr (pending s, mkStore [] (calls s));
     rich_render := render |}.

(** Two records, and none. *)
Definition two_records : list string :=
  ["gravity bends light"; "tides follow gravity"].

Definition no_records : list string := [].

(** The engine before its first statement, and its world. *)
Definition fresh : store := mkStore [] 0.

Definition start : World store := initial fresh.

(** The engines over these records, with nothing broken. *)
Definition with_two : Env store := env two_records true None.

Definition with_none : Env store := env no_records true None.

End Demo.

(** ** The file system seen by [connect_db] *)

(** [env] on another file system: what [os.path.exists] and [os.makedirs]
    answer is replaced, the rest is kept. *)
Definition with_fs {S : Type} (env : Env S) (path_exists : string -> bool)
    (makedirs : string -> option exn) : Env S :=
  {| os_path_expanduser := os_path_expanduser env;
     os_path_dirname := os_path_dirname env;
     os_path_exists := path_exists;
     os_makedirs := makedirs;
     kuzudb_connect := kuzudb_connect env;
     db_cursor := db_cursor env;
     cursor_execute := cursor_execute env;
     cursor_fetchall := cursor_fetchall env;
     rich_render := rich_render env |}.

(** [env] with another answer of [os.makedirs], on the same file system. *)
Definition with_makedirs {S : Type} (env : Env S)
    (makedirs : string -> option exn) : Env S :=
  {| os_path_expanduser := os_path_expanduser env;
     os_path_dirname := os_path_dirname env;
     os_path_exists := os_path_exists env;
     os_makedirs := makedirs;
     kuzudb_connect := kuzudb_connect env;
     db_cursor := db_cursor env;
     cursor_execute := cursor_execute env;
     cursor_fetchall := cursor_fetchall env;
     rich_render := rich_render env |}.

(** ** Where a text starts and ends *)

(** The first character of [s] is white space. *)
Definition starts_with_space (s : string) : bool :=
  match s with
  | "" => false
  | String c _ => Py.isspace c
  end.

(** The last character of [s] is white space. *)
Fixpoint ends_with_space (s : string) : bool :=
  match s with
  | "" => false
  | String c "" => Py.isspace c
  | String _ s' => ends_with_space s'
  end.

(** No text of [rows] has a newline in it. *)
Definition one_line_rows (rows : list Row) : Prop :=
  Forall (fun r => Py.newlines (row_0 r) = 0) rows.

(** The lines an evidence text of [rows] takes when no text has a newline:
    one per row, and one for the sentinel. *)
Definition evidence_lines (rows : list Row) : nat := Nat.max 1 (length rows).

(** ** Engines with and without the limit *)

Module Lax.



(** What an engine that ignores [LIMIT 5] answers: every matching record. *)
Definition answer_to (kb : list string) (parameters : list string) :
    list Row :=
  match parameters with
  | [p] => map (fun t => mkRow t []) (filter (Demo.like p) kb)
  | _ => []
  end.

(** The engine of [Demo.with_two] with this answer over [kb]. *)
Definition env (kb : list string) : Env Demo.store :=
  {| os_path_expanduser := os_path_expanduser Demo.with_two;
     os_path_dirname := os_path_dirname Demo.with_two;
     os_path_exists := os_path_exists Demo.with_two;
     os_makedirs := os_makedirs Demo.with_two;
     kuzudb_connect := kuzudb_connect Demo.with_two;
     db_cursor := db_cursor Demo.with_two;
     cursor_execute := fun _ parameters s =>
       inr (Demo.mkStore (answer_to kb parameters)
              (Datatypes.S (Demo.calls s)));
     cursor_fetchall := cursor_fetchall Demo.with_two;
     rich_render := rich_render Demo.with_two |}.

End Lax.

(** ** Faulty surroundings for the in-memory store *)

Module Faults.

(** The directory is missing and cannot be made. *)
Definition no_directory : Env Demo.store :=
  with_fs Demo.with_two (fun _ => false)
    (fun _ => Some (PyExc "PermissionError")).

(** A console that refuses every text. *)
Definition no_console : Env Demo.store :=
  {| os_path_expanduser := os_path_expanduser Demo.with_two;
     os_path_dirname := os_path_dirname Demo.with_two;
     os_path_exists := os_path_exists Demo.with_two;
     os_makedirs := os_makedirs Demo.with_two;
     kuzudb_connect := kuzudb_connect Demo.with_two;
     db_cursor := db_cursor Demo.with_two;
     cursor_execute := cursor_execute Demo.with_two;
     cursor_fetchall := cursor_fetchall Demo.with_two;
     rich_render := fun _ => inl (PyExc "MarkupError") |}.

End Faults.

(** * Properties *)

(** ** Facts on text *)

Module Text.

Lemma length_app (a b : string) :
  String.length (a ++ b) = String.length a + String.length b.
Proof. induction a as [|x a IH]; simpl; [reflexivity | now rewrite IH]. Qed.

Lemma newlines_app (a b : string) :
  Py.newlines (a ++ b) = Py.newlines a + Py.newlines b.
Proof. induction a as [|x a IH]; simpl; [reflexivity | rewrite IH; lia]. Qed.

(** White space in front of a text is stripped with that of the text. *)
Lemma lstrip_space_app (ws s : string) :
  Py.all_space ws = true -> Py.lstrip (ws ++ s) = Py.lstrip s.
Proof.
  induction ws as [|c ws IH]; simpl; intros H; [reflexivity|].
  apply andb_prop in H as [Hc Hws]. rewrite Hc. now apply IH.
Qed.

Lemma rstrip_all_space (ws : string) :
  Py.all_space ws = true -> Py.rstrip ws = "".
Proof.
  induction ws as [|c ws IH]; simpl; intros H; [reflexivity|].
  apply andb_prop in H as [Hc Hws]. now rewrite (IH Hws), Hc.
Qed.

(** White space behind a text is stripped with that of the text. *)
Lemma rstrip_app_space (s ws : string) :
  Py.all_space ws = true -> Py.rstrip (s ++ ws) = Py.rstrip s.
Proof.
  intros H. induction s as [|c s IH]; simpl.
  - now apply rstrip_all_space.
  - now rewrite IH.
Qed.

(** What [lstrip] returns is empty or starts with a character that is not
    white space. *)
Lemma lstrip_cases (s : string) :
  (Py.lstrip s = "" /\ Py.all_space s = true) \/
  (exists c t, Py.lstrip s = String c t /\ Py.isspace c = false).
Proof.
  induction s as [|c s IH]; simpl.
  - now left.
  - destruct (Py.isspace c) eqn:Hc; simpl.
    + exact IH.
    + right. now exists c, s.
Qed.

Lemma lstrip_app (s t : string) :
  Py.all_space s = false -> Py.lstrip (s ++ t) = Py.lstrip s ++ t.
Proof.
  induction s as [|c s IH]; simpl; intros H; [discriminate|].
  destruct (Py.isspace c); simpl in *; [now apply IH | reflexivity].
Qed.

(** [strip] does not see the white space around a text. *)
Lemma strip_surrounded (ws1 s ws2 : string) :
  Py.all_space ws1 = true -> Py.all_space ws2 = true ->
  Py.strip (ws1 ++ s ++ ws2) = Py.strip s.
Proof.
  intros H1 H2. unfold Py.strip. rewrite (lstrip_space_app _ _ H1).
  destruct (Py.all_space s) eqn:Hs.
  - assert (Hall : Py.all_space (s ++ ws2) = true).
    { clear H1. induction s as [|c s IH]; simpl in *; [exact H2|].
      apply andb_prop in Hs as [Hc Hs]. now rewrite Hc, (IH Hs). }
    destruct (lstrip_cases (s ++ ws2)) as [[E _]|(c & t & E & Hc)].
    + rewrite E. destruct (lstrip_cases s) as [[E' _]|(c' & t' & E' & Hc')].
      * now rewrite E'.
      * exfalso. clear - Hs E' Hc'.
        induction s as [|x s IH]; simpl in *; [discriminate|].
        apply andb_prop in Hs as [Hx Hs]. rewrite Hx in E'. now apply IH.
    + exfalso. clear - Hall E Hc. revert E.
      induction (s ++ ws2) as [|x u IH]; simpl in *; [discriminate|].
      apply andb_prop in Hall as [Hx Hu]. rewrite Hx. now apply IH.
  - rewrite (lstrip_app _ _ Hs). now apply rstrip_app_space.
Qed.

End Text.

(** ** The loop over the branches *)

Section Loop.

Context {S : Type} (env : Env S).

(** One turn of the loop, by the outcome of its lookup. *)
Lemma gather_turn query b bs answers w :
  match query_result env MATCH_STATEMENT [like_pattern query] (store w) with
  | inl e =>
      gather env query (b :: bs) answers w = (inl e, failed_lookup env query w)
  | inr rows =>
      gather env query (b :: bs) answers w =
      gather env query bs (answers ++ [answer_of b rows])%list
        (after_lookup env query w rows)
  end.
Proof.
  destruct b as [label subquery].
  unfold query_result, after_lookup, failed_lookup, query_next, answer_of,
    the_call.
  cbn [gather]. generalize (like_pattern query); intros p.
  unfold bind, execute, fetchall, on_store, bind. cbn.
  destruct (cursor_execute env MATCH_STATEMENT [p] (store w))
    as [e|s1]; cbn; [auto|].
  destruct (cursor_fetchall env s1) as [e|[rows s2]]; cbn; auto.
Qed.

Ltac turn query b bs answers w :=
  let T := fresh "T" in
  let Q := fresh "Q" in
  pose proof (gather_turn query b bs answers w) as T;
  destruct (query_result env MATCH_STATEMENT [like_pattern query] (store w))
    eqn:Q.

(** The loop writes nothing and executes the same call some number of
    times: once per branch when it ends without an exception. *)
Lemma gather_trace query bs : forall answers w,
  exists n,
    n <= length bs /\
    executed (snd (gather env query bs answers w)) =
      (executed w ++ repeat (the_call query) n)%list /\
    stdout (snd (gather env query bs answers w)) = stdout w /\
    (forall res, fst (gather env query bs answers w) = inr res ->
                 n = length bs).
Proof.
  induction bs as [|b bs IH]; intros answers w.
  - exists 0. cbn. rewrite List.app_nil_r. auto.
  - turn query b bs answers w.
    + rewrite T. exists 1.
      cbn [length repeat fst snd failed_lookup executed stdout].
      repeat split; try lia; auto. intros res H. discriminate.
    + rewrite T.
      destruct (IH (answers ++ [answer_of b l])%list
                  (after_lookup env query w l))
        as (n & Hn & He & Ho & Hr).
      exists (Datatypes.S n). cbn [length repeat]. repeat split.
      * lia.
      * rewrite He. cbn. now rewrite <- List.app_assoc.
      * exact Ho.
      * intros res H. now rewrite (Hr res H).
Qed.

(** When the loop ends without an exception, the lookups returned one result
    set per branch, each from a state of the store, and every branch got
    the answer of its rows. *)
Lemma gather_returns query bs : forall answers w res w',
  gather env query bs answers w = (inr res, w') ->
  exists rowss,
    length rowss = length bs /\
    fetched w' = (fetched w ++ rowss)%list /\
    res = (answers ++ map (fun p => answer_of (fst p) (snd p))
                        (combine bs rowss))%list /\
    Forall (fun rows => exists s,
              query_result env MATCH_STATEMENT [like_pattern query] s
              = inr rows) rowss.
Proof.
  induction bs as [|b bs IH]; intros answers w res w' H.
  - cbn in H. injection H as <- <-. exists []. cbn.
    now rewrite !List.app_nil_r.
  - turn query b bs answers w.
    + rewrite H in T. discriminate.
    + rewrite T in H. apply IH in H as (rowss & Hl & Hf & Hr & Hq).
      exists (l :: rowss). cbn [length combine map fst snd]. repeat split.
      * now rewrite Hl.
      * rewrite Hf. cbn. now rewrite <- List.app_assoc.
      * rewrite Hr. now rewrite <- List.app_assoc.
      * constructor; [now exists (store w) | exact Hq].
Qed.

(** The loop raises only what a lookup raised. *)
Lemma gather_raises query bs : forall answers w e w',
  gather env query bs answers w = (inl e, w') ->
  exists s, query_result env MATCH_STATEMENT [like_pattern query] s = inl e.
Proof.
  induction bs as [|b bs IH]; intros answers w e w' H.
  - discriminate.
  - turn query b bs answers w.
    + rewrite H in T. injection T as <- _. now exists (store w).
    + rewrite T in H. now apply IH in H.
Qed.

(** A failing lookup ends the loop with its exception. *)
Lemma gather_fails query bs : forall answers w e,
  branch_query_fails env query (length bs) (store w) e ->
  fst (gather env query bs answers w) = inl e.
Proof.
  induction bs as [|b bs IH]; intros answers w e H; cbn [length] in H.
  - inversion H.
  - turn query b bs answers w.
    + rewrite T. cbn [fst]. inversion H; subst; congruence.
    + rewrite T. apply IH. cbn.
      inversion H; subst; [congruence|].
      assert (l = rows) by congruence. now subst.
Qed.

(** Under a response function the loop is decided by the response to the
    one call. *)
Lemma gather_responds f query bs : forall answers w,
  responds_by env f ->
  fst (gather env query bs answers w) =
  match bs with
  | [] => inr answers
  | _ :: _ =>
      match f MATCH_STATEMENT [like_pattern query] with
      | inl e => inl e
      | inr rows => inr (answers ++ map (fun b => answer_of b rows) bs)%list
      end
  end.
Proof.
  intros answers w R. revert answers w.
  induction bs as [|b bs IH]; intros answers w; [reflexivity|].
  turn query b bs answers w; rewrite R in Q; rewrite Q.
  - now rewrite T.
  - rewrite T, IH. destruct bs as [|b' bs]; [reflexivity|].
    rewrite Q. cbn [map]. now rewrite <- List.app_assoc.
Qed.

End Loop.

(** ** The search and the entry point *)

Section Search.

Context {S : Type} (env : Env S).

(** Opening the store writes nothing and executes no statement. *)
Lemma open_store_quiet w :
  stdout (snd (open_store env w)) = stdout w /\
  executed (snd (open_store env w)) = executed w /\
  fetched (snd (open_store env w)) = fetched w.
Proof.
  unfold open_store, connect_db, bind, on_store, raise, ret.
  destruct (negb _); [destruct (os_makedirs env _)|]; cbn; auto;
    destruct (kuzudb_connect env _ _); cbn; auto;
    destruct (db_cursor env _); cbn; auto.
Qed.

(** The search: open the store, run the loop, format the answers. *)
Lemma meta_deep_search_unfold query w :
  meta_deep_search env query w =
  match open_store env w with
  | (inl e, w1) => (inl e, w1)
  | (inr _, w1) =>
      match gather env query (branches query) [] w1 with
      | (inl e, w2) => (inl e, w2)
      | (inr answers, w2) => (inr (synthesize answers), w2)
      end
  end.
Proof.
  unfold meta_deep_search, open_store, bind, ret.
  destruct (connect_db env w) as [[e|u] w1]; [reflexivity|].
  destruct (on_store (db_cursor env) w1) as [[e|u'] w2]; reflexivity.
Qed.

(** A search that returns a text ran the loop to its end. *)
Lemma meta_deep_search_returns query w out w' :
  meta_deep_search env query w = (inr out, w') ->
  exists w1 answers,
    open_store env w = (inr tt, w1) /\
    gather env query (branches query) [] w1 = (inr answers, w') /\
    out = synthesize answers.
Proof.
  rewrite meta_deep_search_unfold.
  destruct (open_store env w) as [[e|[]] w1]; [discriminate|].
  destruct (gather env query (branches query) [] w1) as [[e|answers] w2] eqn:G;
    [discriminate|].
  intros H. injection H as <- <-. now exists w1, answers.
Qed.

(** The search writes nothing to standard output. *)
Lemma meta_deep_search_quiet query w :
  stdout (snd (meta_deep_search env query w)) = stdout w.
Proof.
  rewrite meta_deep_search_unfold.
  destruct (open_store_quiet w) as (Ho & _).
  destruct (open_store env w) as [[e|u] w1]; cbn in *; [exact Ho|].
  destruct (gather_trace env query (branches query) [] w1)
    as (n & _ & _ & Hg & _).
  destruct (gather env query (branches query) [] w1) as [[e|answers] w2];
    cbn in *; congruence.
Qed.

End Search.

(** ** C1: the lookups *)

(** No sub-query of a branch is the pattern of the lookups. *)
Lemma subquery_not_pattern query :
  Forall (fun b => snd b <> like_pattern query) (branches query).
Proof.
  unfold branches, like_pattern.
  repeat constructor; cbn [snd]; intros H;
    apply (f_equal String.length) in H;
    rewrite !Text.length_app in H; cbn in H; lia.
Qed.

(** C1: whatever the store does, every statement the search executes is the
    one [MATCH ... LIMIT 5] statement with the single parameter
    ["%" ++ query ++ "%"] built from the original query; a search that
    returns has executed it exactly three times, once per branch, and no
    branch's own sub-query text is that parameter. *)
Theorem C1_lookups_use_original_query :
  forall (S : Type) (env : Env S) (query : string) (w : World S),
  exists n,
    n <= 3 /\
    executed (snd (meta_deep_search env query w)) =
      (executed w ++
       repeat ("MATCH (n:Knowledge) WHERE n.text LIKE ? RETURN n LIMIT 5",
               [("%" ++ query ++ "%")%string]) n)%list /\
    (forall out, fst (meta_deep_search env query w) = inr out -> n = 3) /\
    Forall (fun b => snd b <> "%" ++ query ++ "%") (branches query).
Proof.
  intros S env query w. rewrite meta_deep_search_unfold.
  destruct (open_store_quiet env w) as (_ & Ho & _).
  destruct (open_store env w) as [[e|u] w1]; cbn [snd] in Ho.
  - exists 0. cbn. rewrite List.app_nil_r. repeat split; auto.
    + discriminate.
    + apply subquery_not_pattern.
  - destruct (gather_trace env query (branches query) [] w1)
      as (n & Hn & He & _ & Hr).
    exists n. rewrite <- Ho.
    destruct (gather env query (branches query) [] w1) as [[e|answers] w2];
      cbn [fst snd] in *;
      (split; [exact Hn | split; [exact He | split;
         [| apply subquery_not_pattern]]]).
    + discriminate.
    + intros out _. now apply (Hr answers).
Qed.

Lemma C1_lookups_use_original_query_witness :
  executed (snd (meta_deep_search Demo.with_two "gravity" Demo.start)) =
  repeat ("MATCH (n:Knowledge) WHERE n.text LIKE ? RETURN n LIMIT 5",
          ["%gravity%"]) 3.
Proof.
  destruct (C1_lookups_use_original_query _ Demo.with_two "gravity" Demo.start)
    as (n & _ & He & Hn & _).
  erewrite Hn in He; [exact He | vm_compute; reflexivity].
Defined.

(** ** C2: the branches *)

(** The three answers of a loop over the branches that ended without an
    exception, by the rows fetched. *)
Lemma gather_branches {S : Type} (env : Env S) query w answers w' :
  gather env query (branches query) [] w = (inr answers, w') ->
  exists r1 r2 r3,
    fetched w' = (fetched w ++ [r1; r2; r3])%list /\
    answers =
      [ ("Historical", "What is the historical context of: " ++ query,
         context_of r1);
        ("Theoretical", "What are the theoretical principles behind: " ++ query,
         context_of r2);
        ("Practical", "What practical examples or proofs exist for: " ++ query,
         context_of r3) ] /\
    Forall (fun rows => exists s,
              query_result env MATCH_STATEMENT [like_pattern query] s
              = inr rows) [r1; r2; r3].
Proof.
  intros H. apply gather_returns in H as (rowss & Hl & Hf & Hr & Hq).
  destruct rowss as [|r1 [|r2 [|r3 [|r4 rowss]]]]; try discriminate.
  exists r1, r2, r3. auto.
Qed.

(** C2: for every query text, the empty one included, the branch list is
    the three pairs Historical, Theoretical, Practical in this order, each
    with its fixed question followed by the query; being a function, it is
    defined on every text, and a loop that ended hands these very pairs on
    to its answers. *)
Theorem C2_decompose_three_branches :
  forall query : string,
    branches query =
      [ ("Historical",
         "What is the historical context of: " ++ query);
        ("Theoretical",
         "What are the theoretical principles behind: " ++ query);
        ("Practical",
         "What practical examples or proofs exist for: " ++ query) ]
    /\ length (branches query) = 3
    /\ map fst (branches query) = ["Historical"; "Theoretical"; "Practical"]
    /\ branches "" =
      [ ("Historical", "What is the historical context of: ");
        ("Theoretical", "What are the theoretical principles behind: ");
        ("Practical", "What practical examples or proofs exist for: ") ]
    /\ (forall (S : Type) (env : Env S) w answers w',
          gather env query (branches query) [] w = (inr answers, w') ->
          map fst answers = branches query).
Proof.
  intros query. repeat split.
  intros S env w answers w' H.
  apply gather_branches in H as (r1 & r2 & r3 & _ & -> & _).
  reflexivity.
Qed.

Lemma C2_decompose_three_branches_witness :
  exists answers w',
    gather Demo.with_two "" (branches "") [] Demo.start = (inr answers, w') /\
    map fst answers =
      [ ("Historical", "What is the historical context of: ");
        ("Theoretical", "What are the theoretical principles behind: ");
        ("Practical", "What practical examples or proofs exist for: ") ].
Proof.
  destruct (C2_decompose_three_branches "") as (_ & _ & _ & _ & H).
  eexists. eexists. split; [vm_compute; reflexivity|].
  eapply (H _ Demo.with_two Demo.start). vm_compute; reflexivity.
Defined.

(** ** C3: the evidence text of a branch *)

(** C3: the evidence text of non-empty rows is their column-0 texts joined
    by newlines (rows a, b give a, newline, b), that of no rows is the
    sentinel; in a loop that ended, each of the three branches carries the
    evidence text of the rows fetched for it; and the loop raises only an
    exception a lookup raised, so rows that are empty are no error. *)
Theorem C3_evidence_text :
  (forall rows, rows <> [] ->
     context_of rows = Py.join Py.nl (map row_0 rows)) /\
  context_of [] = "(no local evidence found)" /\
  (forall a b ra rb, context_of [mkRow a ra; mkRow b rb] = a ++ Py.nl ++ b) /\
  (forall (S : Type) (env : Env S) query w answers w',
     gather env query (branches query) [] w = (inr answers, w') ->
     exists r1 r2 r3,
       fetched w' = (fetched w ++ [r1; r2; r3])%list /\
       map snd answers = [context_of r1; context_of r2; context_of r3]) /\
  (forall (S : Type) (env : Env S) query bs answers w e w',
     gather env query bs answers w = (inl e, w') ->
     exists s,
       query_result env MATCH_STATEMENT [like_pattern query] s = inl e).
Proof.
  split; [|split; [|split; [|split]]].
  - intros [|r rows] H; [congruence | reflexivity].
  - reflexivity.
  - reflexivity.
  - intros S env query w answers w' H.
    apply gather_branches in H as (r1 & r2 & r3 & Hf & -> & _).
    now exists r1, r2, r3.
  - intros S env query bs answers w e w' H. eapply gather_raises, H.
Qed.

Lemma C3_evidence_text_witness :
  exists answers w',
    gather Demo.with_none "gravity" (branches "gravity") [] Demo.start
    = (inr answers, w') /\
    map snd answers =
      [ "(no local evidence found)"; "(no local evidence found)";
        "(no local evidence found)" ].
Proof.
  destruct C3_evidence_text as (_ & _ & _ & H & _).
  eexists. eexists. split; [vm_compute; reflexivity|].
  edestruct (H _ Demo.with_none "gravity" Demo.start)
    as (r1 & r2 & r3 & Hf & Ha); [vm_compute; reflexivity|].
  vm_compute in Hf. injection Hf as <- <- <-. exact Ha.
Defined.

(** ** C4: the shape of the synthesis *)

(** The text after the header. *)
Lemma synthesis_three l1 q1 c1 l2 q2 c2 l3 q3 c3 :
  synthesize [(l1, q1, c1); (l2, q2, c2); (l3, q3, c3)] =
  "Tree-of-Thoughts Synthesis:" ++ Py.nl ++
  Py.join Py.nl [ "[bold red]" ++ l1 ++ "[/]: " ++ c1;
                  "[bold red]" ++ l2 ++ "[/]: " ++ c2;
                  "[bold red]" ++ l3 ++ "[/]: " ++ c3 ].
Proof. reflexivity. Qed.

(** As stated, C4 fails: with two matching records every branch carries two
    lines, and six lines follow the header. *)
Lemma C4_counterexample :
  ~ (forall (S : Type) (env : Env S) query w out w',
       meta_deep_search env query w = (inr out, w') ->
       exists rest,
         out = "Tree-of-Thoughts Synthesis:" ++ Py.nl ++ rest /\
         Py.line_count rest = 3).
Proof.
  intros H.
  edestruct (H _ Demo.with_two "gravity" Demo.start) as (rest & E & L);
    [vm_compute; reflexivity|].
  apply (f_equal (Spec.drop 28)) in E. vm_compute in E. subst rest.
  vm_compute in L. discriminate.
Qed.

(** C4, amended: a search that returns gives the header followed by three
    entries joined by newlines, for Historical, Theoretical and Practical
    in this order, each the marked label, a colon and a space, and the
    evidence text of the rows fetched for that branch; the text after the
    header has three lines and one more for every newline inside an
    evidence text. *)
Theorem C4_synthesis_shape :
  forall (S : Type) (env : Env S) query w out w',
    meta_deep_search env query w = (inr out, w') ->
    exists r1 r2 r3 rest,
      fetched w' = (fetched w ++ [r1; r2; r3])%list /\
      out = "Tree-of-Thoughts Synthesis:" ++ Py.nl ++ rest /\
      rest = Py.join Py.nl
               [ "[bold red]Historical[/]: " ++ context_of r1;
                 "[bold red]Theoretical[/]: " ++ context_of r2;
                 "[bold red]Practical[/]: " ++ context_of r3 ] /\
      Py.line_count rest =
        3 + Py.newlines (context_of r1) + Py.newlines (context_of r2)
          + Py.newlines (context_of r3).
Proof.
  intros S env query w out w' H.
  apply meta_deep_search_returns in H as (w1 & answers & Ho & Hg & ->).
  apply gather_branches in Hg as (r1 & r2 & r3 & Hf & -> & _).
  destruct (open_store_quiet env w) as (_ & _ & Hq).
  rewrite Ho in Hq. cbn [snd] in Hq. rewrite Hq in Hf.
  exists r1, r2, r3. eexists. split; [exact Hf|].
  split; [apply synthesis_three|]. split; [reflexivity|].
  unfold Py.line_count. cbn [Py.join].
  rewrite !Text.newlines_app. cbn. lia.
Qed.

Lemma C4_synthesis_shape_witness :
  exists out w',
    meta_deep_search Demo.with_none "gravity" Demo.start = (inr out, w') /\
    exists r1 r2 r3 rest,
      fetched w' = (fetched Demo.start ++ [r1; r2; r3])%list /\
      out = "Tree-of-Thoughts Synthesis:" ++ Py.nl ++ rest /\
      rest = Py.join Py.nl
               [ "[bold red]Historical[/]: " ++ context_of r1;
                 "[bold red]Theoretical[/]: " ++ context_of r2;
                 "[bold red]Practical[/]: " ++ context_of r3 ] /\
      Py.line_count rest =
        3 + Py.newlines (context_of r1) + Py.newlines (context_of r2)
          + Py.newlines (context_of r3).
Proof.
  eexists. eexists. split; [vm_compute; reflexivity|].
  eapply (C4_synthesis_shape _ Demo.with_none "gravity" Demo.start).
  vm_compute; reflexivity.
Defined.

(** ** C5: the line of a branch *)

(** C5: in a search that returns, the text after the header is the lines of
    the three answers joined by newlines; the line of an answer is its label
    between the markers [[bold red]] and [[/]], then a colon and a space,
    then its evidence text, and with the two markers taken away it is
    exactly ["<label>: <evidence_text>"]. *)
Theorem C5_line_format :
  forall (S : Type) (env : Env S) query w out w',
    meta_deep_search env query w = (inr out, w') ->
    exists answers,
      map fst answers = branches query /\
      out = "Tree-of-Thoughts Synthesis:" ++ Py.nl ++
            Py.join Py.nl (map answer_line answers) /\
      Forall (fun a : answer =>
                let '(label, subquery, evidence_text) := a in
                answer_line a =
                  "[bold red]" ++ label ++ "[/]" ++ ": " ++ evidence_text /\
                Spec.unstyled (answer_line a) =
                  Spec.plain_line label evidence_text) answers.
Proof.
  intros S env query w out w' H.
  apply meta_deep_search_returns in H as (w1 & answers & _ & Hg & ->).
  apply gather_branches in Hg as (r1 & r2 & r3 & _ & Ha & _).
  exists answers. subst answers.
  split; [reflexivity|]. split; [reflexivity|].
  repeat constructor.
Qed.

Lemma C5_line_format_witness :
  exists answers,
    map fst answers = branches "gravity" /\
    "Tree-of-Thoughts Synthesis:" ++ Py.nl ++
    "[bold red]Historical[/]: gravity bends light" ++ Py.nl ++
    "tides follow gravity" ++ Py.nl ++
    "[bold red]Theoretical[/]: gravity bends light" ++ Py.nl ++
    "tides follow gravity" ++ Py.nl ++
    "[bold red]Practical[/]: gravity bends light" ++ Py.nl ++
    "tides follow gravity" =
    "Tree-of-Thoughts Synthesis:" ++ Py.nl ++
    Py.join Py.nl (map answer_line answers) /\
    Forall (fun a : answer =>
              let '(label, subquery, evidence_text) := a in
              answer_line a =
                "[bold red]" ++ label ++ "[/]" ++ ": " ++ evidence_text /\
              Spec.unstyled (answer_line a) =
                Spec.plain_line label evidence_text) answers.
Proof.
  eapply (C5_line_format _ Demo.with_two "gravity" Demo.start).
  vm_compute; reflexivity.
Defined.

(** ** The entry point *)

Section Entry.

Context {S : Type} (env : Env S).

Lemma main_unfold input w :
  main env input w =
  match meta_deep_search env (Py.strip input) w with
  | (inl e, w1) => (inl e, w1)
  | (inr out, w1) => rich_print env out w1
  end.
Proof. reflexivity. Qed.

(** How [main] ends and what is then on standard output, by how the search
    and the rendering end. *)
Lemma main_outcome input w :
  (fst (main env input w), stdout (snd (main env input w))) =
  match fst (meta_deep_search env (Py.strip input) w) with
  | inl e => (inl e, stdout w)
  | inr out =>
      match rich_render env out with
      | inl e => (inl e, stdout w)
      | inr r => (inr tt, stdout w ++ r ++ Py.nl)
      end
  end.
Proof.
  rewrite main_unfold.
  pose proof (meta_deep_search_quiet env (Py.strip input) w) as Q.
  destruct (meta_deep_search env (Py.strip input) w) as [[e|out] w1];
    cbn [fst snd] in *.
  - now rewrite Q.
  - unfold rich_print. destruct (rich_render env out) as [e|r]; cbn;
      now rewrite Q.
Qed.

Lemma run_process_outcome s input :
  run_process env s input =
  (exit_status (fst (main env input (initial s))),
   stdout (snd (main env input (initial s)))).
Proof.
  unfold run_process. now destruct (main env input (initial s)).
Qed.

(** A failing store makes the search raise. *)
Lemma meta_deep_search_fails query w e :
  storage_fails env query w e ->
  fst (meta_deep_search env query w) = inl e.
Proof.
  intros H. rewrite meta_deep_search_unfold.
  destruct H as [H|[H1 H2]];
    destruct (open_store env w) as [[e'|[]] w1]; cbn [fst snd] in *;
    try discriminate; try congruence.
  pose proof (gather_fails env query (branches query) [] w1 e H2) as G.
  destruct (gather env query (branches query) [] w1) as [[e'|a] w2];
    cbn [fst] in *; congruence.
Qed.

(** Under a response function the search is decided by how the store opens
    and by the response to the one call. *)
Lemma meta_deep_search_responds f query w :
  responds_by env f ->
  fst (meta_deep_search env query w) =
  match fst (open_store env w) with
  | inl e => inl e
  | inr _ =>
      match f MATCH_STATEMENT [like_pattern query] with
      | inl e => inl e
      | inr rows =>
          inr (synthesize (map (fun b => answer_of b rows) (branches query)))
      end
  end.
Proof.
  intros R. rewrite meta_deep_search_unfold.
  destruct (open_store env w) as [[e|u] w1]; cbn [fst]; [reflexivity|].
  assert (G : fst (gather env query (branches query) [] w1) =
              match f MATCH_STATEMENT [like_pattern query] with
              | inl e => inl e
              | inr rows =>
                  inr (map (fun b => answer_of b rows) (branches query))
              end)
    by exact (gather_responds env f query (branches query) [] w1 R).
  destruct (gather env query (branches query) [] w1) as [[e|a] w2];
    cbn [fst] in *;
    destruct (f MATCH_STATEMENT [like_pattern query]);
    try discriminate; now injection G as ->.
Qed.

End Entry.

(** ** C6: a failing store *)

(** C6: when opening the store raises, or the store opens and the lookup of
    one of the three branches raises, [main] ends with that exception
    uncaught, nothing has been written to standard output, and the process
    exits with status 1. *)
Theorem C6_failure_prints_nothing :
  forall (S : Type) (env : Env S) (s : S) (input : string) (e : exn),
    storage_fails env (Py.strip input) (initial s) e ->
    fst (main env input (initial s)) = inl e /\
    stdout (snd (main env input (initial s))) = "" /\
    run_process env s input = (1%Z, "").
Proof.
  intros S env s input e H.
  apply meta_deep_search_fails in H.
  pose proof (main_outcome env input (initial s)) as O.
  rewrite H in O. injection O as O1 O2.
  rewrite run_process_outcome, O1, O2. auto.
Qed.

Lemma C6_failure_prints_nothing_witness :
  run_process (Demo.env Demo.two_records true (Some 1)) Demo.fresh "gravity"
  = (1%Z, "") /\
  run_process (Demo.env Demo.two_records false None) Demo.fresh "gravity"
  = (1%Z, "").
Proof.
  split.
  - apply (C6_failure_prints_nothing _
             (Demo.env Demo.two_records true (Some 1)) Demo.fresh "gravity"
             (PyExc "RuntimeError")).
    right. split; [vm_compute; reflexivity|].
    apply fails_later with
      (rows := [mkRow "gravity bends light" [];
                mkRow "tides follow gravity" []]);
      [vm_compute; reflexivity|].
    apply fails_here. vm_compute; reflexivity.
  - apply (C6_failure_prints_nothing _
             (Demo.env Demo.two_records false None) Demo.fresh "gravity"
             (PyExc "RuntimeError")).
    left. vm_compute; reflexivity.
Defined.

(** ** C7: the entry point *)

Lemma lstrip_split (s : string) :
  exists a, s = a ++ Py.lstrip s /\ Py.all_space a = true /\
            starts_with_space (Py.lstrip s) = false.
Proof.
  induction s as [|c s (a & E & Ha & Hs)].
  - now exists "".
  - cbn [Py.lstrip]. destruct (Py.isspace c) eqn:Hc.
    + exists (String c a). cbn. rewrite Hc, Ha, <- E. auto.
    + exists "". cbn. auto.
Qed.

Lemma rstrip_split (t : string) :
  exists b, t = Py.rstrip t ++ b /\ Py.all_space b = true /\
            ends_with_space (Py.rstrip t) = false.
Proof.
  induction t as [|c t (b & E & Hb & He)].
  - now exists "".
  - cbn [Py.rstrip]. destruct (Py.rstrip t) as [|d r].
    + cbn in E. subst b. destruct (Py.isspace c) eqn:Hc.
      * exists (String c t). cbn. rewrite Hc, Hb. auto.
      * exists t. cbn. auto.
    + exists b. split; [|split; [exact Hb | exact He]].
      cbn in E |- *. now rewrite <- E.
Qed.

Lemma rstrip_keeps_start (t : string) :
  starts_with_space t = false -> starts_with_space (Py.rstrip t) = false.
Proof.
  destruct t as [|c t]; [reflexivity|]. cbn. intros Hc.
  destruct (Py.rstrip t); [rewrite Hc|]; cbn; auto.
Qed.

(** A text that neither starts nor ends with white space is left as it
    is. *)
Lemma strip_fixed (q : string) :
  starts_with_space q = false -> ends_with_space q = false ->
  Py.strip q = q.
Proof.
  intros Hs He. unfold Py.strip.
  assert (L : Py.lstrip q = q).
  { destruct q as [|c q]; [reflexivity|]. cbn in Hs |- *. now rewrite Hs. }
  rewrite L. clear Hs L.
  induction q as [|c q IH]; [reflexivity|].
  destruct q as [|d r].
  - cbn in He |- *. now rewrite He.
  - change (ends_with_space (String c (String d r)))
      with (ends_with_space (String d r)) in He.
    remember (String d r) as t eqn:Et.
    cbn [Py.rstrip]. rewrite (IH He), Et. reflexivity.
Qed.

(** C7: [main] runs the search on the stripped input and prints what it
    returns.  The stripped input is the input without the white space at
    its two ends: an input made of white space, a text [query] that neither
    starts nor ends with white space, and white space again, reaches the
    search as [query], and every input is of this form; the lookups carry
    the pattern of the stripped input.  When the search returns [out] and
    the console renders it as [r], standard output receives [r] and a
    newline and the exit status is 0; white space around the input changes
    nothing of a run. *)
Theorem C7_entry_point_strips_input :
  forall (S : Type) (env : Env S),
    (forall input,
       main env input =
       (out <- meta_deep_search env (Py.strip input) ;; rich_print env out)) /\
    (forall input w out w1 r,
       meta_deep_search env (Py.strip input) w = (inr out, w1) ->
       rich_render env out = inr r ->
       fst (main env input w) = inr tt /\
       stdout (snd (main env input w)) = stdout w ++ r ++ Py.nl) /\
    (forall input s out w1 r,
       meta_deep_search env (Py.strip input) (initial s) = (inr out, w1) ->
       rich_render env out = inr r ->
       run_process env s input = (0%Z, r ++ Py.nl)) /\
    (forall ws1 input ws2,
       Py.all_space ws1 = true -> Py.all_space ws2 = true ->
       main env (ws1 ++ input ++ ws2) = main env input /\
       forall s,
         run_process env s (ws1 ++ input ++ ws2) = run_process env s input) /\
    (forall ws1 query ws2,
       Py.all_space ws1 = true -> Py.all_space ws2 = true ->
       starts_with_space query = false -> ends_with_space query = false ->
       Py.strip (ws1 ++ query ++ ws2) = query /\
       main env (ws1 ++ query ++ ws2) =
       (out <- meta_deep_search env query ;; rich_print env out)) /\
    (forall input,
       exists ws1 ws2,
         input = ws1 ++ Py.strip input ++ ws2 /\
         Py.all_space ws1 = true /\ Py.all_space ws2 = true /\
         starts_with_space (Py.strip input) = false /\
         ends_with_space (Py.strip input) = false) /\
    (forall input w,
       exists n,
         n <= 3 /\
         executed (snd (main env input w)) =
           (executed w ++
            repeat (MATCH_STATEMENT, [("%" ++ Py.strip input ++ "%")%string])
              n)%list).
Proof.
  intros S env. split; [reflexivity|].
  assert (P : forall input w out w1 r,
             meta_deep_search env (Py.strip input) w = (inr out, w1) ->
             rich_render env out = inr r ->
             fst (main env input w) = inr tt /\
             stdout (snd (main env input w)) = stdout w ++ r ++ Py.nl).
  { intros input w out w1 r Hs Hr.
    pose proof (main_outcome env input w) as O.
    rewrite Hs in O. cbn [fst] in O. rewrite Hr in O.
    now injection O as O1 O2. }
  split; [exact P|]. split; [|split; [|split; [|split]]].
  - intros input s out w1 r Hs Hr.
    destruct (P _ _ _ _ _ Hs Hr) as [P1 P2].
    now rewrite run_process_outcome, P1, P2.
  - intros ws1 input ws2 H1 H2.
    assert (E : main env (ws1 ++ input ++ ws2) = main env input).
    { unfold main. now rewrite (Text.strip_surrounded _ _ _ H1 H2). }
    split; [exact E|]. intros s. unfold run_process. now rewrite E.
  - intros ws1 query ws2 H1 H2 Hs He.
    assert (E : Py.strip (ws1 ++ query ++ ws2) = query)
      by (rewrite (Text.strip_surrounded _ _ _ H1 H2);
          now apply strip_fixed).
    split; [exact E|]. unfold main. now rewrite E.
  - intros input.
    destruct (lstrip_split input) as (a & Ea & Ha & Hs).
    destruct (rstrip_split (Py.lstrip input)) as (b & Eb & Hb & He).
    exists a, b. split; [unfold Py.strip; now rewrite <- Eb|].
    split; [exact Ha|]. split; [exact Hb|].
    split; [now apply rstrip_keeps_start | exact He].
  - intros input w. rewrite main_unfold, meta_deep_search_unfold.
    destruct (open_store_quiet env w) as (_ & He & _).
    destruct (open_store env w) as [[e|u] w1]; cbn [snd] in He.
    + exists 0. cbn. rewrite List.app_nil_r. split; [lia | exact He].
    + destruct (gather_trace env (Py.strip input)
                  (branches (Py.strip input)) [] w1)
        as (n & Hn & Ht & _ & _).
      exists n. split; [exact Hn|]. rewrite <- He.
      destruct (gather env (Py.strip input) (branches (Py.strip input)) []
                  w1) as [[e|answers] w2]; cbn [snd] in *; [exact Ht|].
      unfold rich_print.
      destruct (rich_render env (synthesize answers)); cbn; exact Ht.
Qed.

Lemma C7_entry_point_strips_input_witness :
  Py.strip ("  " ++ "gravity bends" ++ Py.nl) = "gravity bends" /\
  run_process Demo.with_two Demo.fresh ("  " ++ "gravity bends" ++ Py.nl) =
  run_process Demo.with_two Demo.fresh "gravity bends" /\
  run_process Demo.with_two Demo.fresh ("  " ++ "gravity bends" ++ Py.nl) =
  (0%Z,
   ("Tree-of-Thoughts Synthesis:" ++ Py.nl ++
    "Historical: gravity bends light" ++ Py.nl ++
    "Theoretical: gravity bends light" ++ Py.nl ++
    "Practical: gravity bends light") ++ Py.nl).
Proof.
  destruct (C7_entry_point_strips_input _ Demo.with_two)
    as (_ & _ & Hrun & Hws & Hq & _).
  split; [|split].
  - apply (Hq "  " "gravity bends" Py.nl); reflexivity.
  - destruct (Hws "  " "gravity bends" Py.nl eq_refl eq_refl) as [_ Hs].
    apply Hs.
  - eapply Hrun; vm_compute; reflexivity.
Defined.

(** ** C8: at most five rows *)


Lemma demo_responds kb :
  responds_by (Demo.env kb true None)
    (fun _ parameters => inr (Demo.answer_to kb parameters)).
Proof. intros statement parameters s. reflexivity. Qed.





(** ** C9: the same output for the same input *)

(** C9: with a store that answers by a response function, two processes
    given the same input, whose stores open alike, end with the same exit
    status and the same standard output, whatever the states of the engine
    they start from. *)
Theorem C9_same_input_same_output :
  forall (S : Type) (env : Env S)
         (f : string -> list string -> exn + list Row)
         (input : string) (s1 s2 : S),
    responds_by env f ->
    fst (open_store env (initial s1)) = fst (open_store env (initial s2)) ->
    run_process env s1 input = run_process env s2 input.
Proof.
  intros S env f input s1 s2 R Ho.
  rewrite !run_process_outcome.
  pose proof (main_outcome env input (initial s1)) as O1.
  pose proof (main_outcome env input (initial s2)) as O2.
  rewrite (meta_deep_search_responds env f _ _ R) in O1.
  rewrite (meta_deep_search_responds env f _ _ R) in O2.
  rewrite <- Ho in O2. cbn [initial stdout] in O1, O2.
  rewrite <- O2 in O1. injection O1 as -> ->. reflexivity.
Qed.

Lemma C9_same_input_same_output_witness :
  run_process Demo.with_two Demo.fresh "gravity" =
  run_process Demo.with_two
    (store (snd (main Demo.with_two "gravity" Demo.start))) "gravity".
Proof.
  apply (C9_same_input_same_output _ Demo.with_two
           (fun _ parameters =>
              inr (Demo.answer_to Demo.two_records parameters))).
  - apply demo_responds.
  - vm_compute; reflexivity.
Defined.

(** ** C10: three equal evidence texts *)

(** The loop sees the labels of the branches only: two branch lists with the
    same labels leave the same world and give answers with the same lines,
    or raise the same exception. *)
Lemma gather_labels_only {S : Type} (env : Env S) query bs :
  forall bs' answers answers' w,
    map fst bs = map fst bs' ->
    map answer_line answers = map answer_line answers' ->
    snd (gather env query bs answers w) = snd (gather env query bs' answers' w)
    /\ match fst (gather env query bs answers w),
             fst (gather env query bs' answers' w) with
       | inl e, inl e' => e = e'
       | inr a, inr a' => map answer_line a = map answer_line a'
       | _, _ => False
       end.
Proof.
  induction bs as [|b bs IH]; intros [|b' bs'] answers answers' w Hl Ha;
    try discriminate.
  - cbn. auto.
  - cbn [map] in Hl. injection Hl as Hb Hl.
    pose proof (gather_turn env query b bs answers w) as T.
    pose proof (gather_turn env query b' bs' answers' w) as T'.
    destruct (query_result env MATCH_STATEMENT [like_pattern query] (store w))
      as [e|rows].
    + rewrite T, T'. cbn. auto.
    + rewrite T, T'. apply IH; [exact Hl|].
      rewrite !map_app, Ha. cbn. destruct b as [l q], b' as [l' q'].
      cbn in Hb. now subst.
Qed.

(** C10: with a store that answers by a response function returning rows,
    the three branches of a loop that ended carry one and the same evidence
    text, that of the rows answered to the one call, and a search that
    returns gives the three labels before this one text; and whatever the
    store does, the sub-query texts of the branches change neither the
    statements executed nor the world left nor the synthesized text. *)
Theorem C10_branches_share_evidence :
  forall (S : Type) (env : Env S),
    (forall (g : string -> list string -> list Row) query w answers w',
       responds_by env (fun st ps => inr (g st ps)) ->
       gather env query (branches query) [] w = (inr answers, w') ->
       map snd answers =
         repeat (context_of (g MATCH_STATEMENT [like_pattern query])) 3) /\
    (forall (g : string -> list string -> list Row) query w out w',
       responds_by env (fun st ps => inr (g st ps)) ->
       meta_deep_search env query w = (inr out, w') ->
       let c := context_of (g MATCH_STATEMENT [like_pattern query]) in
       out = "Tree-of-Thoughts Synthesis:" ++ Py.nl ++
             Py.join Py.nl
               [ "[bold red]Historical[/]: " ++ c;
                 "[bold red]Theoretical[/]: " ++ c;
                 "[bold red]Practical[/]: " ++ c ]) /\
    (forall query bs bs' w,
       map fst bs = map fst bs' ->
       snd (gather env query bs [] w) = snd (gather env query bs' [] w) /\
       match fst (gather env query bs [] w),
             fst (gather env query bs' [] w) with
       | inl e, inl e' => e = e'
       | inr a, inr a' => synthesize a = synthesize a'
       | _, _ => False
       end).
Proof.
  intros S env. split; [|split].
  - intros g query w answers w' R H.
    pose proof (gather_responds env _ query (branches query) [] w R) as G.
    rewrite H in G. cbn [fst] in G. injection G as ->. reflexivity.
  - intros g query w out w' R H.
    pose proof (meta_deep_search_responds env _ query w R) as G.
    rewrite H in G. cbn [fst] in G.
    destruct (fst (open_store env w)); [discriminate|].
    injection G as ->. reflexivity.
  - intros query bs bs' w Hl.
    destruct (gather_labels_only env query bs bs' [] [] w Hl eq_refl)
      as [Hw Hr].
    split; [exact Hw|].
    destruct (fst (gather env query bs [] w)),
      (fst (gather env query bs' [] w)); auto.
    unfold synthesize, synthesis. now rewrite Hr.
Qed.

Lemma C10_branches_share_evidence_witness :
  exists answers w',
    gather Demo.with_two "gravity" (branches "gravity") [] Demo.start
    = (inr answers, w') /\
    map snd answers =
      repeat ("gravity bends light" ++ Py.nl ++ "tides follow gravity") 3.
Proof.
  destruct (C10_branches_share_evidence _ Demo.with_two) as (H & _ & _).
  eexists. eexists. split; [vm_compute; reflexivity|].
  eapply (H (fun _ => Demo.answer_to Demo.two_records) "gravity" Demo.start).
  - apply demo_responds.
  - vm_compute; reflexivity.
Defined.

(** * Further properties of the program *)

(** ** How a process can end *)

(** X1: a process ends in one of two ways, whatever the input and the
    surroundings: with status 1 and nothing on standard output, or with
    status 0 and exactly the rendering of the text the search returned,
    followed by a newline. *)
Theorem X1_two_ways_to_end :
  forall (S : Type) (env : Env S) (s : S) (input : string),
    run_process env s input = (1%Z, "") \/
    exists out r,
      fst (meta_deep_search env (Py.strip input) (initial s)) = inr out /\
      rich_render env out = inr r /\
      run_process env s input = (0%Z, r ++ Py.nl).
Proof.
  intros S env s input. rewrite run_process_outcome.
  pose proof (main_outcome env input (initial s)) as O.
  destruct (fst (meta_deep_search env (Py.strip input) (initial s)))
    as [e|out].
  - left. now injection O as -> ->.
  - destruct (rich_render env out) as [e|r] eqn:R.
    + left. now injection O as -> ->.
    + right. exists out, r. injection O as -> ->. auto.
Qed.

(** X2: when the search returns a text and the console raises on it, [main]
    ends with the exception of the console: the three lookups have been
    executed, nothing is written and the status is 1. *)
Theorem X2_console_failure :
  forall (S : Type) (env : Env S) (s : S) (input out : string)
         (w1 : World S) (e : exn),
    meta_deep_search env (Py.strip input) (initial s) = (inr out, w1) ->
    rich_render env out = inl e ->
    main env input (initial s) = (inl e, w1) /\
    executed w1 = repeat (the_call (Py.strip input)) 3 /\
    stdout w1 = "" /\
    run_process env s input = (1%Z, "").
Proof.
  intros S env s input out w1 e Hs Hr.
  assert (Hm : main env input (initial s) = (inl e, w1)).
  { rewrite main_unfold, Hs. unfold rich_print. now rewrite Hr. }
  pose proof (meta_deep_search_quiet env (Py.strip input) (initial s)) as Q.
  rewrite Hs in Q. cbn [snd initial stdout] in Q.
  split; [exact Hm|]. split; [|split; [exact Q|]].
  - apply meta_deep_search_returns in Hs as (w0 & answers & Ho & Hg & _).
    destruct (open_store_quiet env (initial s)) as (_ & He & _).
    rewrite Ho in He. cbn [snd initial executed] in He.
    destruct (gather_trace env (Py.strip input)
                (branches (Py.strip input)) [] w0) as (n & _ & Ht & _ & Hn).
    rewrite Hg in Ht, Hn. cbn [fst snd] in Ht, Hn.
    rewrite (Hn answers eq_refl), He in Ht. exact Ht.
  - rewrite run_process_outcome, Hm. cbn [fst snd exit_status].
    now rewrite Q.
Qed.

Lemma X2_console_failure_witness :
  exists w1,
    main Faults.no_console "gravity" Demo.start
    = (inl (PyExc "MarkupError"), w1) /\
    executed w1 = repeat (the_call (Py.strip "gravity")) 3 /\
    stdout w1 = "" /\
    run_process Faults.no_console Demo.fresh "gravity" = (1%Z, "").
Proof.
  eexists.
  eapply (X2_console_failure _ Faults.no_console Demo.fresh "gravity");
    vm_compute; reflexivity.
Defined.

(** ** The directory of the database *)

(** X3: when the directory of the database is missing and [os.makedirs]
    raises, [main] ends with that exception before anything else happens:
    no connection is tried, no statement is executed and nothing is
    written, the world being left as it was. *)
Theorem X3_makedirs_failure :
  forall (S : Type) (env : Env S) (input : string) (w : World S) (e : exn),
    os_path_exists env (os_path_dirname env (DB_PATH env)) = false ->
    os_makedirs env (os_path_dirname env (DB_PATH env)) = Some e ->
    main env input w = (inl e, w) /\
    forall s, run_process env s input = (1%Z, "").
Proof.
  intros S env input w e Hx Hm.
  assert (A : forall w0, main env input w0 = (inl e, w0)).
  { intros w0. unfold main, meta_deep_search, connect_db, bind, raise.
    now rewrite Hx, Hm. }
  split; [apply A|]. intros s. unfold run_process. now rewrite A.
Qed.

Lemma X3_makedirs_failure_witness :
  main Faults.no_directory "gravity" Demo.start
  = (inl (PyExc "PermissionError"), Demo.start) /\
  forall s, run_process Faults.no_directory s "gravity" = (1%Z, "").
Proof.
  apply (X3_makedirs_failure _ Faults.no_directory "gravity" Demo.start
           (PyExc "PermissionError")); reflexivity.
Defined.

(** The loop does not look at [os.makedirs]. *)
Lemma gather_with_makedirs {S : Type} (env : Env S) makedirs query bs :
  forall answers w,
    gather (with_makedirs env makedirs) query bs answers w =
    gather env query bs answers w.
Proof.
  induction bs as [|[label subquery] bs IH]; intros answers w;
    [reflexivity|].
  cbn [gather]. unfold bind.
  change (execute (with_makedirs env makedirs)) with (execute env).
  change (fetchall (with_makedirs env makedirs)) with (fetchall env).
  destruct (execute env MATCH_STATEMENT [like_pattern query] w)
    as [[e|u] w1]; [reflexivity|].
  destruct (fetchall env w1) as [[e|rows] w2]; [reflexivity|].
  apply IH.
Qed.

(** X4: when the directory of the database exists, [os.makedirs] is not
    called: on this file system the run is the same whatever [os.makedirs]
    would answer, an exception included. *)
Theorem X4_no_makedirs_when_the_directory_exists :
  forall (S : Type) (env : Env S) (makedirs : string -> option exn)
         (input : string) (w : World S),
    os_path_exists env (os_path_dirname env (DB_PATH env)) = true ->
    main (with_makedirs env makedirs) input w = main env input w.
Proof.
  intros S env makedirs input w H.
  assert (C : connect_db (with_makedirs env makedirs) w = connect_db env w).
  { unfold connect_db, bind.
    change (os_path_exists (with_makedirs env makedirs)
              (os_path_dirname (with_makedirs env makedirs)
                 (DB_PATH (with_makedirs env makedirs))))
      with (os_path_exists env (os_path_dirname env (DB_PATH env))).
    rewrite H. reflexivity. }
  rewrite !main_unfold, !meta_deep_search_unfold.
  unfold open_store, bind. rewrite C.
  destruct (connect_db env w) as [[e|u] w1]; [reflexivity|].
  change (db_cursor (with_makedirs env makedirs)) with (db_cursor env).
  destruct (on_store (db_cursor env) w1) as [[e|u'] w2]; [reflexivity|].
  rewrite gather_with_makedirs.
  destruct (gather env (Py.strip input) (branches (Py.strip input)) [] w2)
    as [[e|answers] w3]; reflexivity.
Qed.

Lemma X4_no_makedirs_when_the_directory_exists_witness :
  main (with_makedirs Demo.with_two
          (fun _ => Some (PyExc "PermissionError"))) "gravity" Demo.start =
  main Demo.with_two "gravity" Demo.start.
Proof.
  apply (X4_no_makedirs_when_the_directory_exists _ Demo.with_two).
  reflexivity.
Defined.

(** ** The two traces of the search *)

(** The loop stops at the first exception: every result set fetched follows
    its statement, and after a lookup that raised no statement is
    executed. *)
Lemma gather_stops {S : Type} (env : Env S) query bs : forall answers w,
  exists rowss n,
    fetched (snd (gather env query bs answers w)) =
      (fetched w ++ rowss)%list /\
    executed (snd (gather env query bs answers w)) =
      (executed w ++ repeat (the_call query) n)%list /\
    match fst (gather env query bs answers w) with
    | inr _ => length rowss = length bs /\ n = length bs
    | inl _ => n = Datatypes.S (length rowss) /\ n <= length bs
    end.
Proof.
  induction bs as [|b bs IH]; intros answers w.
  - exists [], 0. cbn. now rewrite !List.app_nil_r.
  - pose proof (gather_turn env query b bs answers w) as T.
    destruct (query_result env MATCH_STATEMENT [like_pattern query] (store w))
      as [e|rows].
    + rewrite T. exists [], 1. cbn. rewrite List.app_nil_r.
      repeat split; lia.
    + rewrite T.
      destruct (IH (answers ++ [answer_of b rows])%list
                  (after_lookup env query w rows))
        as (rowss & n & Hf & He & Hr).
      exists (rows :: rowss), (Datatypes.S n).
      rewrite Hf, He. cbn [after_lookup fetched executed length repeat].
      rewrite <- !List.app_assoc. cbn [app].
      repeat split.
      destruct (fst (gather env query bs (answers ++ [answer_of b rows])%list
                       (after_lookup env query w rows)));
        lia.
Qed.

(** X5: on a store whose rows are tuples of text, in every run of the
    search, returning or not, the statements executed are [n <= 3] copies
    of the one call and the result sets fetched are [k]: when the search
    returns, [n = k = 3]; when it raises, either the store did not open and
    [n = k = 0], or the lookup after [k] fetched result sets raised and
    [n = k + 1], nothing being executed after it. *)
Theorem X5_search_stops_at_first_failure :
  forall (S : Type) (env : Env S) (query : string) (w : World S),
    exists rowss n,
      fetched (snd (meta_deep_search env query w)) =
        (fetched w ++ rowss)%list /\
      executed (snd (meta_deep_search env query w)) =
        (executed w ++ repeat (the_call query) n)%list /\
      match fst (meta_deep_search env query w) with
      | inr _ => length rowss = 3 /\ n = 3
      | inl _ =>
          (n = 0 /\ rowss = []) \/
          (n = Datatypes.S (length rowss) /\ n <= 3)
      end.
Proof.
  intros S env query w. rewrite meta_deep_search_unfold.
  destruct (open_store_quiet env w) as (_ & He & Hf).
  destruct (open_store env w) as [[e|u] w1]; cbn [snd] in He, Hf.
  - exists [], 0. cbn. rewrite !List.app_nil_r. auto.
  - destruct (gather_stops env query (branches query) [] w1)
      as (rowss & n & Gf & Ge & Gr).
    exists rowss, n. rewrite <- He, <- Hf.
    destruct (gather env query (branches query) [] w1) as [[e|answers] w2];
      cbn [fst snd] in *; auto.
Qed.

(** ** The query that [main] hands to the search *)

(** X6: [strip] takes white space away at the two ends and nothing else:
    the input is white space, then the query handed to the search, then
    white space; the query neither starts nor ends with white space; and
    stripping twice changes nothing, so that [main] on the stripped input
    is [main] on the input. *)
Theorem X6_query_is_the_stripped_input :
  forall input : string,
    (exists a b,
       input = a ++ Py.strip input ++ b /\
       Py.all_space a = true /\ Py.all_space b = true) /\
    starts_with_space (Py.strip input) = false /\
    ends_with_space (Py.strip input) = false /\
    Py.strip (Py.strip input) = Py.strip input /\
    forall (S : Type) (env : Env S),
      main env (Py.strip input) = main env input.
Proof.
  intros input.
  destruct (lstrip_split input) as (a & Ea & Ha & Hs).
  destruct (rstrip_split (Py.lstrip input)) as (b & Eb & Hb & He).
  assert (E : input = a ++ Py.strip input ++ b)
    by (unfold Py.strip; now rewrite <- Eb).
  assert (I : Py.strip (Py.strip input) = Py.strip input).
  { rewrite E at 2. now rewrite (Text.strip_surrounded _ _ _ Ha Hb). }
  split; [now exists a, b|]. split; [now apply rstrip_keeps_start|].
  split; [exact He|]. split; [exact I|].
  intros S env. unfold main. now rewrite I.
Qed.

(** X7: on an input of white space only, the empty one included, the query
    is empty: the run is the run on the empty input, and every lookup has
    the parameter ["%%"]. *)
Theorem X7_blank_input :
  forall (S : Type) (env : Env S) (input : string) (w : World S),
    Py.all_space input = true ->
    Py.strip input = "" /\
    main env input = main env "" /\
    exists n,
      n <= 3 /\
      executed (snd (main env input w)) =
        (executed w ++ repeat (MATCH_STATEMENT, ["%%"]) n)%list.
Proof.
  intros S env input w H.
  assert (E : Py.strip input = "").
  { unfold Py.strip.
    destruct (Text.lstrip_cases input) as [[L _]|(c & t & L & Hc)].
    - now rewrite L.
    - exfalso. clear - H L Hc.
      induction input as [|x u IH]; cbn in *; [discriminate|].
      apply andb_prop in H as [Hx Hu]. rewrite Hx in L. now apply IH. }
  split; [exact E|]. split; [unfold main; now rewrite E|].
  rewrite main_unfold, E, meta_deep_search_unfold.
  destruct (open_store_quiet env w) as (_ & He & _).
  destruct (open_store env w) as [[e|u] w1]; cbn [snd] in He.
  - exists 0. cbn. rewrite List.app_nil_r. split; [lia | exact He].
  - destruct (gather_trace env "" (branches "") [] w1)
      as (n & Hn & Ht & _ & _).
    exists n. split; [exact Hn|]. rewrite <- He.
    destruct (gather env "" (branches "") [] w1) as [[e|answers] w2];
      cbn [snd] in *; [exact Ht|].
    unfold rich_print.
    destruct (rich_render env (synthesize answers)); cbn; exact Ht.
Qed.

Lemma X7_blank_input_witness :
  Py.strip (" " ++ Py.nl) = "" /\
  main Demo.with_two (" " ++ Py.nl) = main Demo.with_two "" /\
  exists n,
    n <= 3 /\
    executed (snd (main Demo.with_two (" " ++ Py.nl) Demo.start)) =
      (executed Demo.start ++ repeat (MATCH_STATEMENT, ["%%"]) n)%list.
Proof.
  apply (X7_blank_input _ Demo.with_two (" " ++ Py.nl) Demo.start).
  reflexivity.
Defined.

(** ** What the output shows *)

(** X8: the text the search returns shows the rows fetched and nothing of
    the query: two searches that return, on any two stores and for any two
    queries, return the same text as soon as they fetched the same result
    sets. *)
Theorem X8_query_is_not_echoed :
  forall (S1 S2 : Type) (env1 : Env S1) (env2 : Env S2)
         (query1 query2 out1 out2 : string)
         (w1 w1' : World S1) (w2 w2' : World S2) (rowss : list (list Row)),
    meta_deep_search env1 query1 w1 = (inr out1, w1') ->
    meta_deep_search env2 query2 w2 = (inr out2, w2') ->
    fetched w1' = (fetched w1 ++ rowss)%list ->
    fetched w2' = (fetched w2 ++ rowss)%list ->
    out1 = out2.
Proof.
  intros S1 S2 env1 env2 query1 query2 out1 out2 w1 w1' w2 w2' rowss
    H1 H2 F1 F2.
  apply meta_deep_search_returns in H1 as (v1 & a1 & O1 & G1 & ->).
  apply meta_deep_search_returns in H2 as (v2 & a2 & O2 & G2 & ->).
  destruct (open_store_quiet env1 w1) as (_ & _ & Q1).
  destruct (open_store_quiet env2 w2) as (_ & _ & Q2).
  rewrite O1 in Q1. rewrite O2 in Q2. cbn [snd] in Q1, Q2.
  apply gather_branches in G1 as (r1 & r2 & r3 & E1 & -> & _).
  apply gather_branches in G2 as (t1 & t2 & t3 & E2 & -> & _).
  rewrite Q1, F1 in E1. rewrite Q2, F2 in E2.
  apply List.app_inv_head in E1. apply List.app_inv_head in E2.
  rewrite E1 in E2. injection E2 as <- <- <-.
  now rewrite !synthesis_three.
Qed.

Lemma X8_query_is_not_echoed_witness :
  exists out1 out2 w1' w2',
    meta_deep_search Demo.with_two "gravity" Demo.start = (inr out1, w1') /\
    meta_deep_search Demo.with_two "a" Demo.start = (inr out2, w2') /\
    out1 = out2.
Proof.
  eexists. eexists. eexists. eexists.
  split; [vm_compute; reflexivity|]. split; [vm_compute; reflexivity|].
  eapply (X8_query_is_not_echoed _ _ Demo.with_two Demo.with_two
            "gravity" "a" _ _ Demo.start _ Demo.start _
            (repeat [mkRow "gravity bends light" [];
                     mkRow "tides follow gravity" []] 3));
    vm_compute; reflexivity.
Defined.

Lemma newlines_join_one_line (parts : list string) :
  Forall (fun p => Py.newlines p = 0) parts ->
  Py.newlines (Py.join Py.nl parts) = pred (length parts).
Proof.
  induction 1 as [|p parts Hp _ IH]; [reflexivity|].
  destruct parts as [|p' parts]; [exact Hp|].
  change (Py.join Py.nl (p :: p' :: parts))
    with (p ++ Py.nl ++ Py.join Py.nl (p' :: parts)).
  rewrite !Text.newlines_app, IH, Hp. reflexivity.
Qed.

(** An evidence text of rows without newlines has one line per row, and one
    line when there is no row. *)
Lemma context_lines (rows : list Row) :
  one_line_rows rows ->
  Datatypes.S (Py.newlines (context_of rows)) = evidence_lines rows.
Proof.
  intros H. unfold evidence_lines. destruct rows as [|r rows]; [reflexivity|].
  unfold context_of. rewrite newlines_join_one_line.
  - rewrite length_map. cbn [length pred]. lia.
  - unfold one_line_rows in H. rewrite Forall_forall in *.
    intros p Hp. apply in_map_iff in Hp as (r' & <- & Hr). now apply H.
Qed.

(** X9: when the texts of the rows have no newline, the text after the
    header has one line per row fetched, a branch without rows counting
    for the one line of its sentinel; with an engine that honours the
    limit that is at most fifteen lines. *)
Theorem X9_lines_of_the_output :
  forall (S : Type) (env : Env S) (query out : string) (w w' : World S),
    (forall s rows,
       query_result env MATCH_STATEMENT [like_pattern query] s = inr rows ->
       one_line_rows rows) ->
    meta_deep_search env query w = (inr out, w') ->
    exists r1 r2 r3 rest,
      fetched w' = (fetched w ++ [r1; r2; r3])%list /\
      out = "Tree-of-Thoughts Synthesis:" ++ Py.nl ++ rest /\
      Py.line_count rest =
        evidence_lines r1 + evidence_lines r2 + evidence_lines r3 /\
      3 <= Py.line_count rest /\
      (honours_limit env -> Py.line_count rest <= 15).
Proof.
  intros S env query out w w' L H.
  apply meta_deep_search_returns in H as (w1 & answers & Ho & Hg & ->).
  destruct (open_store_quiet env w) as (_ & _ & Hq).
  rewrite Ho in Hq. cbn [snd] in Hq.
  apply gather_branches in Hg as (r1 & r2 & r3 & Hf & -> & Hr).
  rewrite Hq in Hf.
  assert (C : forall r, In r [r1; r2; r3] ->
                Datatypes.S (Py.newlines (context_of r)) = evidence_lines r
                /\ (honours_limit env -> length r <= 5)).
  { intros r Hin. rewrite Forall_forall in Hr.
    destruct (Hr r Hin) as [s Hs]. split.
    - apply context_lines. eapply L, Hs.
    - intros Hl. eapply Hl, Hs. }
  destruct (C r1) as [C1 B1]; [cbn; auto|].
  destruct (C r2) as [C2 B2]; [cbn; auto|].
  destruct (C r3) as [C3 B3]; [cbn; auto|].
  exists r1, r2, r3. eexists. split; [exact Hf|].
  split; [apply synthesis_three|].
  assert (E : Py.line_count
                (Py.join Py.nl
                   [ "[bold red]" ++ "Historical" ++ "[/]: " ++ context_of r1;
                     "[bold red]" ++ "Theoretical" ++ "[/]: " ++ context_of r2;
                     "[bold red]" ++ "Practical" ++ "[/]: " ++ context_of r3 ])
              = evidence_lines r1 + evidence_lines r2 + evidence_lines r3).
  { unfold Py.line_count. cbn [Py.join].
    rewrite !Text.newlines_app, <- C1, <- C2, <- C3.
    generalize (Py.newlines (context_of r1)), (Py.newlines (context_of r2)),
      (Py.newlines (context_of r3)).
    intros n1 n2 n3. cbn. lia. }
  split; [exact E|]. rewrite E. unfold evidence_lines in *. split; [lia|].
  intros Hl. specialize (B1 Hl). specialize (B2 Hl). specialize (B3 Hl). lia.
Qed.

Lemma X9_lines_of_the_output_witness :
  exists out w',
    meta_deep_search Demo.with_two "gravity" Demo.start = (inr out, w') /\
    exists r1 r2 r3 rest,
      fetched w' = (fetched Demo.start ++ [r1; r2; r3])%list /\
      out = "Tree-of-Thoughts Synthesis:" ++ Py.nl ++ rest /\
      Py.line_count rest =
        evidence_lines r1 + evidence_lines r2 + evidence_lines r3 /\
      3 <= Py.line_count rest /\
      (honours_limit Demo.with_two -> Py.line_count rest <= 15).
Proof.
  eexists. eexists. split; [vm_compute; reflexivity|].
  eapply (X9_lines_of_the_output _ Demo.with_two "gravity" _ Demo.start).
  - intros s rows H. vm_compute in H. injection H as <-.
    repeat constructor.
  - vm_compute; reflexivity.
Defined.

(** ** Where an exception comes from *)

(** X10: once standard input has been read as text, and on a store whose
    rows are tuples of text, an exception [main] ends with was raised by
    [os.makedirs], by [kuzudb.connect], by [db.cursor], by a lookup with
    the pattern of the stripped input, or by the console on a text the
    search returned.  Empty input and empty result sets are no cause of
    failure. *)
Theorem X10_exceptions_come_from_outside :
  forall (S : Type) (env : Env S) (input : string) (w w' : World S) (e : exn),
    main env input w = (inl e, w') ->
    os_makedirs env (os_path_dirname env (DB_PATH env)) = Some e \/
    (exists s, kuzudb_connect env (DB_PATH env) s = inl e) \/
    (exists s, db_cursor env s = inl e) \/
    (exists s,
       query_result env MATCH_STATEMENT [like_pattern (Py.strip input)] s
       = inl e) \/
    (exists out w1,
       meta_deep_search env (Py.strip input) w = (inr out, w1) /\
       rich_render env out = inl e).
Proof.
  intros S env input w w' e H. rewrite main_unfold in H.
  destruct (meta_deep_search env (Py.strip input) w) as [[e'|out] w1] eqn:Hs.
  - injection H as -> ->. rewrite meta_deep_search_unfold in Hs.
    destruct (open_store env w) as [[e'|u] w0] eqn:Ho.
    + injection Hs as -> ->. clear - Ho.
      unfold open_store, connect_db, bind, on_store, raise, ret in Ho.
      destruct (negb _) in Ho.
      * destruct (os_makedirs env _) as [e'|] eqn:Hm in Ho;
          [injection Ho as -> _; now left|].
        destruct (kuzudb_connect env _ _) as [e'|s1] eqn:Hc in Ho;
          [injection Ho as -> _; right; left; eauto|].
        cbn in Ho. destruct (db_cursor env s1) as [e'|s2] eqn:Hd in Ho;
          [injection Ho as -> _; right; right; left; eauto | discriminate].
      * destruct (kuzudb_connect env _ _) as [e'|s1] eqn:Hc in Ho;
          [injection Ho as -> _; right; left; eauto|].
        cbn in Ho. destruct (db_cursor env s1) as [e'|s2] eqn:Hd in Ho;
          [injection Ho as -> _; right; right; left; eauto | discriminate].
    + destruct (gather env (Py.strip input) (branches (Py.strip input)) []
                  w0) as [[e'|answers] w2] eqn:Hg; [|discriminate].
      injection Hs as -> ->. apply gather_raises in Hg.
      right; right; right; left. exact Hg.
  - unfold rich_print in H.
    destruct (rich_render env out) as [e'|r] eqn:Hr; [|discriminate].
    injection H as -> _. right; right; right; right. now exists out, w1.
Qed.

Lemma X10_exceptions_come_from_outside_witness :
  exists out w1,
    meta_deep_search Faults.no_console (Py.strip "gravity") Demo.start
    = (inr out, w1) /\
    rich_render Faults.no_console out = inl (PyExc "MarkupError").
Proof.
  edestruct (X10_exceptions_come_from_outside _ Faults.no_console "gravity"
               Demo.start) as [H|[[s H]|[[s H]|[[s H]|H]]]];
    [vm_compute; reflexivity | | | | | exact H];
    vm_compute in H; discriminate H.
Defined.
